(** * AP_Calc: the budget-constrained invoice allocation of [AP_Calc.py]
      and the period loop of [main.py]

    The development embeds [filter_and_recommend] (AP_Calc.py) and the
    period loop of [main.py] as Rocq functions and proves the properties
    the specification states about them.

    Modelling conventions.
    - A pandas DataFrame is the list of its rows, in index order.
    - A cell that is missing ([None], [NaN], [NaT]) is [None].
    - Text is [string]; [str.lower] and [str.strip] are modelled on ASCII.
    - Amounts and budgets are exact rationals ([Q]) in place of floats: the
      engine only adds, subtracts and compares them. The budget cells of the
      configuration hold numbers ([main.py] keeps the rows where they are
      present).
    - A timestamp is an integer ([Z]), the nanoseconds since 1970-01-01.
    - [pd.to_datetime(..., errors="coerce")] and
      [pd.to_numeric(..., errors="coerce")] are library functions: the
      engine is parametrised by them ([to_datetime], [to_numeric]), cell by
      cell, and [None] is the missing value they yield on failure.
    - The Python set [already_recommended] is a [gset].

    Further parts of the code that are embedded: the per-vendor summary of
    [filter_and_recommend], the report normaliser
    [extract_data_to_dataframe] with [validate_and_process_report]
    (AP_Calc.py), the reading of the configuration sheet in [main.py], and
    [update_env_file] (api_qbo.py).
    - A JSON payload is a record of the keys the code reads; a key read
      with [.get] may be missing.
    - A call that can raise returns an [Outcome]: a value or the exception.
    - The environment file is its text; [readlines] and [writelines] are
      modelled on it, line feeds included.
    The HTTP requests, the SharePoint transfers and the Excel files are not
    modelled. *)

From Stdlib Require Import ZArith QArith Qminmax Lqa Ascii String.
From stdpp Require Import base list gmap strings sorting.

Local Open Scope Z_scope.

(** * Definitions *)

(** ** Text normalisation: [s.lower().strip()] *)

Module Text.

Definition is_upper (c : ascii) : bool :=
  (65 <=? nat_of_ascii c)%nat && (nat_of_ascii c <=? 90)%nat.

Definition lower_char (c : ascii) : ascii :=
  if is_upper c then ascii_of_nat (nat_of_ascii c + 32) else c.

(** The ASCII characters [str.strip] removes: tab, line feed, vertical tab,
    form feed, carriage return, the four separators 28..31, and space. *)
Definition is_space (c : ascii) : bool :=
  ((9 <=? nat_of_ascii c)%nat && (nat_of_ascii c <=? 13)%nat)
  || ((28 <=? nat_of_ascii c)%nat && (nat_of_ascii c <=? 32)%nat).

Fixpoint lower (s : string) : string :=
  match s with
  | EmptyString => EmptyString
  | String c s' => String (lower_char c) (lower s')
  end.

Fixpoint lstrip (s : string) : string :=
  match s with
  | EmptyString => EmptyString
  | String c s' => if is_space c then lstrip s' else s
  end.

Fixpoint rstrip (s : string) : string :=
  match s with
  | EmptyString => EmptyString
  | String c s' =>
      match rstrip s' with
      | EmptyString => if is_space c then EmptyString else String c EmptyString
      | t => String c t
      end
  end.

Definition strip (s : string) : string := rstrip (lstrip s).

(** [vendor.lower().strip()] *)
Definition normalize (s : string) : string := strip (lower s).

(** A text that is empty or starts with a character that is kept. *)
Definition starts_clean (s : string) : Prop :=
  match s with
  | EmptyString => True
  | String c _ => is_space c = false
  end.

End Text.

(** ** A stable sort

    [DataFrame.sort_values] on several keys and the key ordering of
    [groupby] are stable sorts; insertion from the right is the simplest
    stable sort, and any stable sort yields the same list. *)

Section StableSort.
Context {A : Type} (leb : A → A → bool).

Fixpoint insert_sorted (x : A) (l : list A) : list A :=
  match l with
  | [] => [x]
  | y :: l' => if leb x y then x :: l else y :: insert_sorted x l'
  end.

Definition stable_sort (l : list A) : list A := foldr insert_sorted [] l.
End StableSort.

(** ** The data model *)

(** A timestamp: nanoseconds since 1970-01-01, as [pd.Timestamp.value]. *)
Abbreviation Timestamp := Z.

(** The ledger built by [extract_data_to_dataframe]: nine text columns. *)
Module Ledger.
Record Row := mkRow {
  Aging_Category : option string;
  Date : option string;
  Transaction_Type : option string;
  Doc_Num : option string;
  Vendor : option string;
  Due_Date : option string;
  Past_Due : option string;
  Amount : option string;
  Open_Balance : option string }.

(** One row of [df["Vendor"] = df["Vendor"].str.lower().str.strip()]. *)
Definition normalize_Vendor (r : Row) : Row :=
  {| Aging_Category := Aging_Category r; Date := Date r;
     Transaction_Type := Transaction_Type r; Doc_Num := Doc_Num r;
     Vendor := Text.normalize <$> Vendor r;
     Due_Date := Due_Date r; Past_Due := Past_Due r; Amount := Amount r;
     Open_Balance := Open_Balance r |}.
End Ledger.

(** A row of [filtered_df] once its columns are coerced and the rows
    without an amount are dropped (AP_Calc.py lines 94-98). *)
Module Bill.
Record Row := mkRow {
  Aging_Category : option string;
  Date : option Timestamp;
  Transaction_Type : option string;
  Doc_Num : option string;
  Vendor : option string;
  Due_Date : option Timestamp;
  Past_Due : option Q;
  Amount : Q;
  Open_Balance : option string }.
End Bill.

(** A row of [filtered_df] after the urgency flag and the merge with the
    vendor table (lines 103-109): the bill, [Is_Past_Due_45], and the
    columns [vendor] and [priority] of the vendor table. *)
Record Candidate := mkCandidate {
  bill : Bill.Row;
  Is_Past_Due_45 : bool;
  vendor : option string;
  priority : option Z }.

(** A recommendation (lines 164-169): the row and the three new columns. *)
Record Recommendation := mkRecommendation {
  row : Candidate;
  Payment_Amount : Q;
  CumulativeVendor : Q;
  Cumulative : Q }.

(** The Vendors sheet: its rows, and whether it has a [priority] column
    (without one the priority cells below are not read). *)
Record VendorTable := mkVendorTable {
  vendor_rows : list (option string * option Z);
  has_priority : bool }.

(** What one call leaves behind: the two frames it assigns into and the
    recommendations it returns. *)
Record Outcome := mkOutcome {
  df_after : list Ledger.Row;
  vendor_table_after : VendorTable;
  recommended_df : list Recommendation }.

Definition Qltb (x y : Q) : bool := negb (Qle_bool y x).

(** Python's [min(a, b, c)]: the first of the smallest. *)
Definition min3 (a b c : Q) : Q :=
  let m := a in
  let m := if Qltb b m then b else m in
  if Qltb c m then c else m.

(** [pd.Timestamp("2024-01-01")] *)
Definition cutoff : Timestamp := 1704067200000000000.

(** [sort_values(by=["Is_Past_Due_45", "priority", "Due Date"],
    ascending=[False, False, True])]: a missing key sorts last whatever the
    direction ([na_position="last"]). *)
Definition compare_desc_bool (a b : bool) : comparison :=
  match a, b with
  | true, false => Lt
  | false, true => Gt
  | _, _ => Eq
  end.

Definition compare_na_last (cmp : Z → Z → comparison) (a b : option Z) : comparison :=
  match a, b with
  | Some x, Some y => cmp x y
  | Some _, None => Lt
  | None, Some _ => Gt
  | None, None => Eq
  end.

Definition sort_compare (a b : Candidate) : comparison :=
  match compare_desc_bool (Is_Past_Due_45 a) (Is_Past_Due_45 b) with
  | Eq =>
      match compare_na_last (λ x y, Z.compare y x) (priority a) (priority b) with
      | Eq => compare_na_last Z.compare (Bill.Due_Date (bill a)) (Bill.Due_Date (bill b))
      | c => c
      end
  | c => c
  end.

Definition sort_leb (a b : Candidate) : bool :=
  match sort_compare a b with Gt => false | _ => true end.

Definition sort_values (df : list Candidate) : list Candidate :=
  stable_sort sort_leb df.

(** [filtered_df.merge(vendor_table, left_on="Vendor", right_on="vendor",
    how="left")]: every left row once per matching right row, in the order
    of the right rows, or once with missing right columns; missing keys
    match each other. *)
Definition merge_row (right : list (option string * option Z))
    (l : Bill.Row * bool) : list Candidate :=
  match filter (λ e, e.1 = Bill.Vendor l.1) right with
  | [] => [mkCandidate l.1 l.2 None None]
  | matches => (λ e, mkCandidate l.1 l.2 e.1 e.2) <$> matches
  end.

Definition merge (left : list (Bill.Row * bool))
    (right : list (option string * option Z)) : list Candidate :=
  left ≫= merge_row right.

Definition set_priority (p : option Z) (c : Candidate) : Candidate :=
  mkCandidate (bill c) (Is_Past_Due_45 c) (vendor c) p.

(** [filtered_df.groupby("Vendor")]: the groups in increasing order of their
    key ([sort=True]), rows without a key dropped ([dropna=True]), every
    group in the order of the frame. *)
Definition group_keys (df : list Candidate) : list string :=
  stable_sort String.leb (remove_dups (omap (λ c, Bill.Vendor (bill c)) df)).

Definition groupby_Vendor (df : list Candidate) : list (string * list Candidate) :=
  (λ v, (v, filter (λ c, Bill.Vendor (bill c) = Some v) df)) <$> group_keys df.

(** ** The allocation engine: [filter_and_recommend] *)

Section Engine.
(** [pd.to_datetime(_, errors="coerce")] and
    [pd.to_numeric(_, errors="coerce")], on one cell. *)
Variable to_datetime : option string → option Timestamp.
Variable to_numeric : option string → option Q.

(** Lines 94-98: the four coercions, then
    [dropna(subset=["Amount"])]: a row whose amount is missing yields
    nothing, any other row keeps whatever the other coercions gave. *)
Definition coerce (r : Ledger.Row) : option Bill.Row :=
  amount ← to_numeric (Ledger.Amount r);
  Some {| Bill.Aging_Category := Ledger.Aging_Category r;
          Bill.Date := to_datetime (Ledger.Date r);
          Bill.Transaction_Type := Ledger.Transaction_Type r;
          Bill.Doc_Num := Ledger.Doc_Num r;
          Bill.Vendor := Ledger.Vendor r;
          Bill.Due_Date := to_datetime (Ledger.Due_Date r);
          Bill.Past_Due := to_numeric (Ledger.Past_Due r);
          Bill.Amount := amount;
          Bill.Open_Balance := Ledger.Open_Balance r |}.

(** [filtered_df["Date"] > pd.Timestamp("2024-01-01")]: false on [NaT]. *)
Definition after_cutoff (b : Bill.Row) : bool :=
  match Bill.Date b with
  | Some d => bool_decide (cutoff < d)
  | None => false
  end.

(** [filtered_df["Past Due"] >= 45]: false on [NaN]. *)
Definition past_due_45 (b : Bill.Row) : bool :=
  match Bill.Past_Due b with
  | Some d => Qle_bool 45 d
  | None => false
  end.

(** Lines 89-118: the candidates of one call, in allocation order, from
    the ledger, the exclusions and the vendor table once their vendor names
    are normalised (lines 84, 85 and 106). *)
Definition candidates (df : list Ledger.Row) (exclusions : list string)
    (vendor_table : VendorTable) (already_recommended : gset (option string))
    : list Candidate :=
  (* 89: df[~df["Vendor"].isin(exclusions)] *)
  let filtered_df := filter (λ r, Ledger.Vendor r ∉ (Some <$> exclusions)) df in
  (* 93: filtered_df["Transaction Type"] == "Bill" *)
  let filtered_df :=
    filter (λ r, Ledger.Transaction_Type r = Some "Bill"%string) filtered_df in
  (* 94-98: the coercions and dropna(subset=["Amount"]) *)
  let filtered_df := omap coerce filtered_df in
  (* 101: filtered_df["Date"] > pd.Timestamp("2024-01-01") *)
  let filtered_df := filter (λ b, after_cutoff b = true) filtered_df in
  (* 103: filtered_df["Is_Past_Due_45"] = filtered_df["Past Due"] >= 45 *)
  let filtered_df := (λ b, (b, past_due_45 b)) <$> filtered_df in
  (* 107: the left merge with the vendor table *)
  let filtered_df := merge filtered_df (vendor_rows vendor_table) in
  (* 109: filtered_df.get("priority", 0): the column when there is one,
     whatever it holds, and 0 only when there is none *)
  let filtered_df :=
    if has_priority vendor_table then filtered_df
    else set_priority (Some 0) <$> filtered_df in
  (* 110-114: sort_values *)
  let filtered_df := sort_values filtered_df in
  (* 118: ~filtered_df["Doc Num"].isin(already_recommended) *)
  filter (λ c, Bill.Doc_Num (bill c) ∉ already_recommended) filtered_df.

(** Lines 144-172: the walk over one vendor's group. It returns the
    period total and the recommendations so far. *)
Fixpoint vendor_loop (global_vendor_budget weekly_budget : Q)
    (group : list Candidate) (vendor_cumulative total_cumulative : Q)
    (recommended : list Recommendation) : Q * list Recommendation :=
  match group with
  | [] => (total_cumulative, recommended)
  | row :: rest =>
      let invoice_amount := Bill.Amount (bill row) in
      let remaining_vendor_budget := global_vendor_budget - vendor_cumulative in
      let remaining_weekly_budget := weekly_budget - total_cumulative in
      let payment_amount :=
        min3 invoice_amount remaining_vendor_budget remaining_weekly_budget in
      if Qle_bool payment_amount 0 then (total_cumulative, recommended)
      else
        let vendor_cumulative := vendor_cumulative + payment_amount in
        let total_cumulative := total_cumulative + payment_amount in
        let recommended :=
          recommended ++
            [mkRecommendation row payment_amount vendor_cumulative total_cumulative] in
        if Qle_bool global_vendor_budget vendor_cumulative
           || Qle_bool weekly_budget total_cumulative
        then (total_cumulative, recommended)
        else vendor_loop global_vendor_budget weekly_budget rest
               vendor_cumulative total_cumulative recommended
  end%Q.

(** Lines 141-172: the loop over the groups; [vendor_cumulative] restarts
    at 0 for every vendor, [total_cumulative] and [recommended] carry on. *)
Fixpoint group_loop (global_vendor_budget weekly_budget : Q)
    (grouped : list (string * list Candidate)) (total_cumulative : Q)
    (recommended : list Recommendation) : Q * list Recommendation :=
  match grouped with
  | [] => (total_cumulative, recommended)
  | (_, group) :: grouped' =>
      let '(total_cumulative, recommended) :=
        vendor_loop global_vendor_budget weekly_budget group 0
          total_cumulative recommended in
      group_loop global_vendor_budget weekly_budget grouped'
        total_cumulative recommended
  end.

(** Lines 125-133: the vendor budgets of the rows whose [week ending] is
    the requested one; the first is used. *)
Definition lookup_vendor_budget (vendor_budget_df : list (option Timestamp * Q))
    (week_ending : Timestamp) : list Q :=
  (filter (λ p, p.1 = Some week_ending) vendor_budget_df).*2.

(** Line 106:
    [vendor_table["vendor"] = vendor_table["vendor"].str.lower().str.strip()]. *)
Definition normalize_vendor_table (vt : VendorTable) : VendorTable :=
  mkVendorTable
    ((λ e : option string * option Z, (Text.normalize <$> e.1, e.2)) <$> vendor_rows vt)
    (has_priority vt).

(** [filter_and_recommend] (lines 75-186). The assignments into [df] (line
    85) and into [vendor_table] (line 106) write the caller's frames: they
    are returned with the recommendations. Line 106 comes after the date
    filter in the source; nothing in between reads the vendor table. The
    per-vendor summary the source also returns is not modelled: [main.py]
    drops it. *)
Definition filter_and_recommend (df : list Ledger.Row) (weekly_budget : Q)
    (exclusions : list string) (vendor_table : VendorTable)
    (week_ending : Timestamp) (already_recommended : gset (option string))
    (vendor_budget_df : list (option Timestamp * Q)) : Outcome :=
  (* 84-85 *)
  let exclusions := Text.normalize <$> exclusions in
  let df := Ledger.normalize_Vendor <$> df in
  (* 106 *)
  let vendor_table := normalize_vendor_table vendor_table in
  (* 89-118 *)
  let filtered_df := candidates df exclusions vendor_table already_recommended in
  (* 125-133 *)
  match lookup_vendor_budget vendor_budget_df week_ending with
  | [] => mkOutcome df vendor_table []
  | global_vendor_budget :: _ =>
      (* 136-172 *)
      let grouped := groupby_Vendor filtered_df in
      mkOutcome df vendor_table
        (group_loop global_vendor_budget weekly_budget grouped 0 []).2
  end.

(** ** The period loop of [main.py] (lines 78-100) *)

(** The state the loop carries: the two frames the engine assigns into,
    the set of recommended [Doc Num]s, and the recommendations so far, one
    block per period that produced any, tagged with its [week_ending];
    [all_recommendations] is their concatenation. *)
Record LoopState := mkLoopState {
  ledger : list Ledger.Row;
  vendors : VendorTable;
  already_recommended : gset (option string);
  blocks : list (Timestamp * list Recommendation) }.

Definition Doc_Nums (recommended : list Recommendation) : list (option string) :=
  (λ r, Bill.Doc_Num (bill (row r))) <$> recommended.

Definition period_step (exclusions_list : list string)
    (vendor_budget_df : list (option Timestamp * Q))
    (st : LoopState) (period : option Timestamp * option Q) : LoopState :=
  match period with
  | (Some week_ending, Some weekly_budget) =>
      let out :=
        filter_and_recommend (ledger st) weekly_budget exclusions_list
          (vendors st) week_ending (already_recommended st) vendor_budget_df in
      match recommended_df out with
      | [] => mkLoopState (df_after out) (vendor_table_after out)
                (already_recommended st) (blocks st)
      | recommended =>
          mkLoopState (df_after out) (vendor_table_after out)
            (already_recommended st ∪ list_to_set (Doc_Nums recommended))
            (blocks st ++ [(week_ending, recommended)])
      end
  | _ => st
  end.

Definition period_loop (df : list Ledger.Row) (exclusions_list : list string)
    (vendor_table : VendorTable)
    (vendor_budget_df : list (option Timestamp * Q))
    (weekly_budget_df : list (option Timestamp * option Q)) : LoopState :=
  foldl (period_step exclusions_list vendor_budget_df)
    (mkLoopState df vendor_table ∅ []) weekly_budget_df.

Definition all_recommendations (st : LoopState) : list (Recommendation * Timestamp) :=
  blocks st ≫= (λ b, (λ r, (r, b.1)) <$> b.2).

End Engine.

(** ** Notions the properties are stated with *)

Definition total_payment (recommended : list Recommendation) : Q :=
  foldr Qplus 0%Q (Payment_Amount <$> recommended).

Definition rec_vendor (r : Recommendation) : option string :=
  Bill.Vendor (bill (row r)).


Definition payment_ok (r : Recommendation) : Prop :=
  (0 < Payment_Amount r)%Q ∧ (Payment_Amount r <= Bill.Amount (bill (row r)))%Q.

(** [kg] is the group of its key in [df]. *)
Definition group_of (df : list Candidate) (kg : string * list Candidate) : Prop :=
  kg.2 = filter (λ c, Bill.Vendor (bill c) = Some kg.1) df.


(** The invariant of the period loop. *)
Definition loop_invariant (st : LoopState) : Prop :=
  (∀ b d, b ∈ blocks st → d ∈ Doc_Nums b.2 → d ∈ already_recommended st)
  ∧ (∀ i j bi bj d, (i < j)%nat →
       blocks st !! i = Some bi → blocks st !! j = Some bj →
       d ∈ Doc_Nums bi.2 → d ∉ Doc_Nums bj.2).

(** ** Sample coercions, for the worked examples

    Two cell parsers that agree with pandas on the cells the examples use:
    ISO dates [YYYY-MM-DD] and signed decimal integers; anything else is a
    coercion failure. *)

Module Sample.

Definition digit (c : ascii) : option Z :=
  let n := nat_of_ascii c in
  if (48 <=? n)%nat && (n <=? 57)%nat then Some (Z.of_nat (n - 48)) else None.

Fixpoint digits (acc : Z) (s : string) : option Z :=
  match s with
  | EmptyString => Some acc
  | String c s' => d ← digit c; digits (10 * acc + d) s'
  end.

Definition number (s : string) : option Z :=
  match s with
  | EmptyString => None
  | String "-" (String c s') => Z.opp <$> digits 0 (String c s')
  | _ => digits 0 s
  end.

(** Days from 1970-01-01 to the civil date [y]-[m]-[d]. *)
Definition days_from_civil (y m d : Z) : Z :=
  let y := if m <=? 2 then y - 1 else y in
  let era := y / 400 in
  let yoe := y - era * 400 in
  let mp := (m + 9) mod 12 in
  let doy := (153 * mp + 2) / 5 + d - 1 in
  let doe := yoe * 365 + yoe / 4 - yoe / 100 + doy in
  era * 146097 + doe - 719468.

Definition iso_date (s : string) : option Timestamp :=
  if bool_decide (String.length s = 10%nat ∧ substring 4 1 s = "-"%string
                  ∧ substring 7 1 s = "-"%string)
  then
    y ← digits 0 (substring 0 4 s);
    m ← digits 0 (substring 5 2 s);
    d ← digits 0 (substring 8 2 s);
    if bool_decide (1 ≤ m ≤ 12 ∧ 1 ≤ d ≤ 31)
    then Some (days_from_civil y m d * 86400000000000)
    else None
  else None.

Definition to_datetime (cell : option string) : option Timestamp :=
  cell ≫= iso_date.

Definition to_numeric (cell : option string) : option Q :=
  inject_Z <$> (cell ≫= number).

(** A bill of the ledger. *)
Definition a_bill (doc vendor date due past_due amount : string) : Ledger.Row :=
  Ledger.mkRow (Some "1 - 30 days past due"%string) (Some date)
    (Some "Bill"%string) (Some doc) (Some vendor) (Some due)
    (Some past_due) (Some amount) (Some amount).

Definition week_1 : Timestamp := 19800 * 86400000000000.
Definition week_2 : Timestamp := 19807 * 86400000000000.

End Sample.

(** ** Worked inputs *)

Module Inputs.
Import Sample.

(** Two bills of one vendor, spelled in two ways, and one of another. *)
Definition bill_D1 : Ledger.Row :=
  a_bill "D1" " Acme " "2024-02-01" "2024-02-01" "50" "100".
Definition bill_D2 : Ledger.Row :=
  a_bill "D2" "ACME" "2024-02-10" "2024-01-15" "60" "200".
Definition bill_Z1 : Ledger.Row :=
  a_bill "Z1" "zeta" "2024-02-10" "2024-01-15" "60" "200".

Definition ledger : list Ledger.Row := [bill_D1; bill_D2; bill_Z1].

Definition vendor_table : VendorTable :=
  mkVendorTable [(Some "Acme"%string, Some 1); (Some "Zeta"%string, Some 5)] true.

Definition vendor_budget_df : list (option Timestamp * Q) :=
  [(Some week_1, 250%Q); (Some week_2, 250%Q)].

Definition weekly_budget_df : list (option Timestamp * option Q) :=
  [(Some week_1, Some 250%Q); (Some week_2, Some 250%Q)].

(** One call for [week_1], nothing recommended before. *)
Definition run (df : list Ledger.Row) (weekly_budget : Q)
    (exclusions : list string) (vendor_table : VendorTable)
    (budgets : list (option Timestamp * Q)) : Outcome :=
  filter_and_recommend to_datetime to_numeric df weekly_budget exclusions
    vendor_table week_1 ∅ budgets.

(** The candidate a ledger row becomes. *)
Definition a_candidate (l : Ledger.Row) (vendor : string) (amount : Q)
    (urgent : bool) (priority : Z) : Candidate :=
  mkCandidate
    (Bill.mkRow (Ledger.Aging_Category l) (to_datetime (Ledger.Date l))
       (Ledger.Transaction_Type l) (Ledger.Doc_Num l) (Some vendor)
       (to_datetime (Ledger.Due_Date l)) (to_numeric (Ledger.Past_Due l))
       amount (Ledger.Open_Balance l))
    urgent (Some vendor) (Some priority).

(** The recommendations of [run ledger 250 [] vendor_table vendor_budget_df]. *)
Definition rec_D2 : Recommendation :=
  mkRecommendation (a_candidate bill_D2 "acme" 200 true 1) 200 200 200.
Definition rec_D1 : Recommendation :=
  mkRecommendation (a_candidate bill_D1 "acme" 100 true 1) 50 250 250.

(** The recommendation of the same call when [acme] is excluded, and of
    the second period of the loop. *)
Definition rec_Z1 : Recommendation :=
  mkRecommendation (a_candidate bill_Z1 "zeta" 200 true 5) 200 200 200.

(** A ledger whose second vendor has the higher priority. *)
Definition two_vendors : list Ledger.Row :=
  [ a_bill "A1" "alpha" "2024-02-01" "2024-02-01" "50" "100";
    a_bill "Z1" "zeta" "2024-02-01" "2024-02-01" "50" "100" ].

Definition zeta_first : VendorTable :=
  mkVendorTable [(Some "alpha"%string, Some 1); (Some "zeta"%string, Some 10)] true.

(** A vendor table that knows [zeta] only, with a negative priority. *)
Definition zeta_only : VendorTable :=
  mkVendorTable [(Some "zeta"%string, Some (-1))] true.


End Inputs.

(** ** The per-vendor summary (AP_Calc.py lines 175-186) *)

(** A row of [recommended_summary]. *)
Record SummaryRow := mkSummaryRow {
  Summary_Vendor : string;
  Summary_Doc_Num : string;
  Summary_Payment_Amount : Q }.

(** [str(x)] of a cell: a missing cell prints as [None]. *)
Definition py_str (cell : option string) : string :=
  match cell with
  | Some s => s
  | None => "None"
  end.

(** The keys of [recommended_df.groupby("Vendor")], in increasing order. *)
Definition summary_keys (recommended : list Recommendation) : list string :=
  stable_sort String.leb (remove_dups (omap rec_vendor recommended)).

(** One row of the aggregation: the [Doc Num]s of the group joined by a
    comma and a space, and the sum of its payments. *)
Definition summary_row (recommended : list Recommendation) (v : string) : SummaryRow :=
  let group := filter (λ r, rec_vendor r = Some v) recommended in
  mkSummaryRow v
    (String.concat ", " ((λ r, py_str (Bill.Doc_Num (bill (row r)))) <$> group))
    (total_payment group).

(** The second component [filter_and_recommend] returns: nothing when there
    is no recommendation, else one row per vendor. *)
Definition recommended_summary (recommended : list Recommendation)
    : option (list SummaryRow) :=
  match recommended with
  | [] => None
  | _ => Some (summary_row recommended <$> summary_keys recommended)
  end.

(** ** The report normaliser: [extract_data_to_dataframe] (AP_Calc.py lines
    49-70)

    The payload is the JSON of an aged-payables report. Every key the code
    reads with [.get] may be missing; a value that is present has the JSON
    type the code expects. *)
Module Report.

(** The [value] of a [ColData] entry: missing key, JSON [null], or text. *)
Inductive Value := Absent | Null | Text (s : string).

(** A row of a section: [row.get("type")], [row.get("ColData", [])]. *)
Record Row := mkRow {
  type : option string;
  ColData : option (list Value) }.

(** A section: the [ColData] of its [Header], missing when [Header] or its
    [ColData] is, and the [Row] of its [Rows], missing when either is. *)
Record Section := mkSection {
  Header_ColData : option (list Value);
  Rows_Row : option (list Row) }.

(** What a call does: it returns, or it raises. *)
Inductive Exception := IndexError | ValueError.
Inductive Outcome (A : Type) := Returned (a : A) | Raised (e : Exception).
Arguments Returned {A} a.
Arguments Raised {A} e.

Definition bind {A B} (m : Outcome A) (f : A → Outcome B) : Outcome B :=
  match m with
  | Returned a => f a
  | Raised e => Raised e
  end.

(** [col.get("value", None)] *)
Definition cell (v : Value) : option string :=
  match v with
  | Text s => Some s
  | _ => None
  end.

(** [section.get("Header", {}).get("ColData", [{}])[0].get("value",
    "No Category")]: the default list has one entry without a value; an
    empty list has no first entry. *)
Definition section_header (s : Section) : Outcome (option string) :=
  match Header_ColData s with
  | None => Returned (Some "No Category"%string)
  | Some [] => Raised IndexError
  | Some (Absent :: _) => Returned (Some "No Category"%string)
  | Some (Null :: _) => Returned None
  | Some (Text h :: _) => Returned (Some h)
  end.

(** Lines 60-63: the values of a row typed [Data], after the header. *)
Definition row_values (header : option string) (r : Row) : option (list (option string)) :=
  if decide (type r = Some "Data"%string)
  then Some (header :: (cell <$> default [] (ColData r)))
  else None.

(** Lines 57-63 for one section. *)
Definition section_data (s : Section) : Outcome (list (list (option string))) :=
  bind (section_header s) (λ header,
    Returned (omap (row_values header) (default [] (Rows_Row s)))).

(** Lines 56-63: the loop over the sections stops at the first that raises. *)
Fixpoint collect (sections : list Section) : Outcome (list (list (option string))) :=
  match sections with
  | [] => Returned []
  | s :: rest =>
      bind (section_data s) (λ data,
        bind (collect rest) (λ more, Returned (data ++ more)))
  end.

(** A row of the frame from the values of a row of [data]; a short row is
    filled up with missing cells. *)
Definition frame_row (values : list (option string)) : Ledger.Row :=
  Ledger.mkRow (mjoin (values !! 0%nat)) (mjoin (values !! 1%nat))
    (mjoin (values !! 2%nat)) (mjoin (values !! 3%nat)) (mjoin (values !! 4%nat))
    (mjoin (values !! 5%nat)) (mjoin (values !! 6%nat)) (mjoin (values !! 7%nat))
    (mjoin (values !! 8%nat)).

(** [pd.DataFrame(data, columns=columns)] with nine column names: no row
    gives an empty frame; otherwise the longest row must have nine values. *)
Definition DataFrame (data : list (list (option string))) : Outcome (list Ledger.Row) :=
  match data with
  | [] => Returned []
  | _ =>
      if decide (max_list (length <$> data) = 9%nat)
      then Returned (frame_row <$> data)
      else Raised ValueError
  end.

(** [json_data.get("Rows", {}).get("Row", [])] is [rows]: missing when
    either key is. *)
Definition extract_data_to_dataframe (rows : option (list Section))
    : Outcome (list Ledger.Row) :=
  bind (collect (default [] rows)) DataFrame.

(** The rows typed [Data] of a section. *)
Definition data_rows (s : Section) : list Row :=
  filter (λ r, type r = Some "Data"%string) (default [] (Rows_Row s)).

(** The rows typed [Data] of all sections, in order, and each with its
    section. *)
Definition all_data_rows (sections : list Section) : list (Section * Row) :=
  sections ≫= λ s, (λ r, (s, r)) <$> data_rows s.

(** The number of [ColData] entries of the row that has the most. *)
Definition widest (rows : list (Section * Row)) : nat :=
  max_list ((λ sr, length (default [] (ColData sr.2))) <$> rows).

(** The rows the loop collects from a section whose header is [header]. *)
Definition section_values (s : Section) (header : option string)
    : list (list (option string)) :=
  (λ r, header :: (cell <$> default [] (ColData r))) <$> data_rows s.

(** [validate_and_process_report] (lines 201-216), given what
    [fetch_ap_aging_from_qbo] returned: no payload, or the [Row] list of its
    [Rows]. *)
Definition validate_and_process_report (fetched : option (option (list Section)))
    : Outcome (option (list Ledger.Row)) :=
  match fetched with
  | None => Returned None
  | Some rows =>
      bind (extract_data_to_dataframe rows) (λ df,
        match df with
        | [] => Returned None
        | _ => Returned (Some df)
        end)
  end.

End Report.

(** ** The configuration sheet and the periods (main.py lines 44-100) *)

Module Config.
(** A row of the [Config] sheet, by its lower-cased column names. *)
Record Row := mkRow {
  config_type : option string;
  vendor_name : option string;
  week_ending : option Timestamp;
  weekly_budget : option Q;
  vendor_budget : option Q }.

(** Line 50: [budget["config type"].str.strip().str.lower()]. *)
Definition normalize_config_type (r : Row) : Row :=
  mkRow (Text.lower <$> (Text.strip <$> config_type r)) (vendor_name r)
    (week_ending r) (weekly_budget r) (vendor_budget r).

(** Lines 57-60: the lower-cased vendor names of the exclusion rows. *)
Definition exclusions_list (budget : list Row) : list string :=
  omap (λ r, Text.lower <$> vendor_name r)
    (filter (λ r, config_type r = Some "exclusion"%string ∧ vendor_name r ≠ None)
       budget).

(** Lines 64-67: the budget rows with a weekly budget. *)
Definition weekly_budget_df (budget : list Row) : list (option Timestamp * option Q) :=
  (λ r, (week_ending r, weekly_budget r))
    <$> filter (λ r, config_type r = Some "budget"%string ∧ weekly_budget r ≠ None)
          budget.

(** Lines 71-74: the budget rows with a vendor budget. *)
Definition vendor_budget_df (budget : list Row) : list (option Timestamp * Q) :=
  omap (λ r, (λ b, (week_ending r, b)) <$> vendor_budget r)
    (filter (λ r, config_type r = Some "budget"%string ∧ vendor_budget r ≠ None)
       budget).
End Config.

Section Main.
Variable to_datetime : option string → option Timestamp.
Variable to_numeric : option string → option Q.

(** Lines 44-100: the periods of a configuration, run on a ledger. *)
Definition run_periods (df : list Ledger.Row) (budget : list Config.Row)
    (vendor_table : VendorTable) : LoopState :=
  let budget := Config.normalize_config_type <$> budget in
  period_loop to_datetime to_numeric df (Config.exclusions_list budget) vendor_table
    (Config.vendor_budget_df budget) (Config.weekly_budget_df budget).
End Main.

(** Two loop states that differ in the spelling of vendor names only. *)
Definition same_up_to_names (st st' : LoopState) : Prop :=
  Ledger.normalize_Vendor <$> ledger st = Ledger.normalize_Vendor <$> ledger st'
  ∧ normalize_vendor_table (vendors st) = normalize_vendor_table (vendors st')
  ∧ already_recommended st = already_recommended st'
  ∧ blocks st = blocks st'.

(** ** The [.env] file: [update_env_file] (api_qbo.py lines 41-72)

    The file is its text; a line ends with a line feed. A value is printed
    as [str] prints it. *)
Module Env.

Definition newline : ascii := "010"%char.








(** A text without a line feed, and without an equals sign. *)
Fixpoint free_of (c : ascii) (s : string) : bool :=
  match s with
  | EmptyString => true
  | String d s' => if decide (d = c) then false else free_of c s'
  end.



End Env.

(** ** Further notions the properties are stated with *)

(** The recommendations the loop over the groups appends, group by group:
    [vendor_loop] run on every group from an empty list, the period total
    carried from one group to the next. *)
Fixpoint group_segments (global_vendor_budget weekly_budget : Q)
    (grouped : list (string * list Candidate)) (total_cumulative : Q)
    : list (list Recommendation) :=
  match grouped with
  | [] => []
  | (_, group) :: grouped' =>
      let out := vendor_loop global_vendor_budget weekly_budget group 0
                   total_cumulative [] in
      out.2 :: group_segments global_vendor_budget weekly_budget grouped' out.1
  end.



(** The period total after a list of recommendations: the [Cumulative] of
    the last one, or [t0] when there is none. *)
Definition last_total (t0 : Q) (recommended : list Recommendation) : Q :=
  match last recommended with
  | Some r => Cumulative r
  | None => t0
  end.






(** A line with its line feed, and no other. *)
Definition complete (l : string) : Prop :=
  ∃ body, Env.free_of Env.newline body = true
          ∧ l = body +:+ String Env.newline EmptyString.

(** What [readlines] returns: complete lines, but for the last, which may
    lack its line feed. *)
Fixpoint proper (lines : list string) : Prop :=
  match lines with
  | [] => True
  | l :: rest =>
      match rest with
      | [] => complete l ∨ (l ≠ EmptyString ∧ Env.free_of Env.newline l = true)
      | _ => complete l ∧ proper rest
      end
  end.

(** ** Further worked inputs *)

Module MoreInputs.
Import Sample Inputs.

(** A credit note entered as a bill, due before the bill of the same vendor. *)
Definition bill_C1 : Ledger.Row :=
  a_bill "C1" "acme" "2024-02-01" "2024-01-10" "60" "-50".

Definition credit_first : list Ledger.Row := [bill_D1; bill_C1].

End MoreInputs.

(** ** Worked documents: a report payload, a configuration sheet and an
    environment file *)

Module Documents.
Import Sample Inputs.

(** A report with one section: the bill [D1] and the total row of the
    section. *)
Definition d1_row : Report.Row :=
  Report.mkRow (Some "Data"%string)
    (Some [Report.Text "2024-02-01"; Report.Text "Bill"; Report.Text "D1";
           Report.Text " Acme "; Report.Text "2024-02-01"; Report.Text "50";
           Report.Text "100"; Report.Text "100"]).

Definition total_row : Report.Row :=
  Report.mkRow None (Some [Report.Text "Total"; Report.Text "100"]).

Definition one_section : Report.Section :=
  Report.mkSection (Some [Report.Text "1 - 30 days past due"])
    (Some [d1_row; total_row]).






End Documents.

(** * Properties *)

Example normalize_ex : Text.normalize "  AcMe Corp  " = "acme corp"%string.
Proof. reflexivity. Qed.

Example cutoff_is_2024_01_01 : Sample.to_datetime (Some "2024-01-01"%string) = Some cutoff.
Proof. reflexivity. Qed.

Example spec_scenario :
  (λ r, (Bill.Doc_Num (bill (row r)), Payment_Amount r, CumulativeVendor r, Cumulative r))
    <$> recommended_df (Inputs.run Inputs.ledger 250 [] Inputs.vendor_table
                         Inputs.vendor_budget_df)
  = [(Some "D2"%string, 200%Q, 200%Q, 200%Q); (Some "D1"%string, 50%Q, 250%Q, 250%Q)].
Proof. vm_compute. reflexivity. Qed.

(** ** Normalisation is idempotent *)

Module TextFacts.
Import Text.

Lemma lower_char_idemp c : lower_char (lower_char c) = lower_char c.
Proof. destruct c as [[] [] [] [] [] [] [] []]; reflexivity. Qed.

Lemma is_space_lower_char c : is_space (lower_char c) = is_space c.
Proof. destruct c as [[] [] [] [] [] [] [] []]; reflexivity. Qed.

Lemma lower_idemp s : lower (lower s) = lower s.
Proof. induction s as [|c s IH]; simpl; [done|]. by rewrite lower_char_idemp, IH. Qed.

Lemma lstrip_lower s : lstrip (lower s) = lower (lstrip s).
Proof.
  induction s as [|c s IH]; simpl; [done|].
  rewrite is_space_lower_char. by destruct (is_space c).
Qed.

Lemma rstrip_lower s : rstrip (lower s) = lower (rstrip s).
Proof.
  induction s as [|c s IH]; simpl; [done|].
  rewrite IH, is_space_lower_char.
  destruct (rstrip s); simpl; [by destruct (is_space c)|done].
Qed.

Lemma strip_lower s : strip (lower s) = lower (strip s).
Proof. unfold strip. by rewrite lstrip_lower, rstrip_lower. Qed.


Lemma lstrip_starts_clean s : starts_clean (lstrip s).
Proof.
  induction s as [|c s IH]; simpl; [done|].
  destruct (is_space c) eqn:Hc; simpl; done.
Qed.

Lemma lstrip_clean s : starts_clean s → lstrip s = s.
Proof. destruct s as [|c s]; simpl; [done|]. by intros ->. Qed.

Lemma rstrip_starts_clean s : starts_clean s → starts_clean (rstrip s).
Proof.
  destruct s as [|c s]; simpl; [done|]. intros Hc.
  destruct (rstrip s); simpl; [by rewrite Hc|done].
Qed.

Lemma rstrip_idemp s : rstrip (rstrip s) = rstrip s.
Proof.
  induction s as [|c s IH]; simpl; [done|].
  destruct (rstrip s) as [|d t] eqn:Ht.
  - destruct (is_space c) eqn:Hc; simpl; [done|]. by rewrite Hc.
  - change (rstrip (String c (String d t)))
      with (match rstrip (String d t) with
            | EmptyString => if is_space c then EmptyString else String c EmptyString
            | u => String c u
            end).
    by rewrite IH.
Qed.

Lemma strip_idemp s : strip (strip s) = strip s.
Proof.
  unfold strip.
  rewrite (lstrip_clean (rstrip (lstrip s))).
  - apply rstrip_idemp.
  - apply rstrip_starts_clean, lstrip_starts_clean.
Qed.

Lemma normalize_idemp s : normalize (normalize s) = normalize s.
Proof.
  unfold normalize.
  by rewrite (strip_lower (strip (lower s))), strip_idemp, <- strip_lower, lower_idemp.
Qed.

End TextFacts.

Lemma normalize_Vendor_idemp r :
  Ledger.normalize_Vendor (Ledger.normalize_Vendor r) = Ledger.normalize_Vendor r.
Proof.
  destruct r as [? ? ? ? [v|] ? ? ? ?]; unfold Ledger.normalize_Vendor; simpl; [|done].
  by rewrite TextFacts.normalize_idemp.
Qed.

(** ** The stable sort sorts, and only reorders *)

Section StableSortFacts.
Context {A : Type} (leb : A → A → bool).
Hypothesis leb_total : ∀ x y, leb x y = true ∨ leb y x = true.
Hypothesis leb_trans : ∀ x y z, leb x y = true → leb y z = true → leb x z = true.

Lemma insert_sorted_Permutation x l : insert_sorted leb x l ≡ₚ x :: l.
Proof.
  induction l as [|y l IH]; simpl; [done|].
  destruct (leb x y); [done|]. rewrite IH. apply Permutation_swap.
Qed.

Lemma stable_sort_Permutation l : stable_sort leb l ≡ₚ l.
Proof.
  induction l as [|x l IH]; simpl; [done|].
  by rewrite insert_sorted_Permutation, IH.
Qed.


End StableSortFacts.

(** ** The allocation order *)









(** ** Payments and their sums *)

Section Arithmetic.
Local Open Scope Q_scope.

Lemma Qle_bool_false x y : Qle_bool x y = false → y < x.
Proof.
  intros H. apply Qnot_le_lt. intros Hle.
  apply Qle_bool_iff in Hle. congruence.
Qed.

Lemma min3_le a b c : min3 a b c <= a ∧ min3 a b c <= b ∧ min3 a b c <= c.
Proof.
  unfold min3, Qltb.
  destruct (Qle_bool a b) eqn:Hab; simpl;
    [apply Qle_bool_iff in Hab|apply Qle_bool_false in Hab].
  - destruct (Qle_bool a c) eqn:Hac; simpl;
      [apply Qle_bool_iff in Hac|apply Qle_bool_false in Hac]; repeat split; lra.
  - destruct (Qle_bool b c) eqn:Hbc; simpl;
      [apply Qle_bool_iff in Hbc|apply Qle_bool_false in Hbc]; repeat split; lra.
Qed.

Lemma total_payment_nil : total_payment [] = 0.
Proof. reflexivity. Qed.

Lemma total_payment_cons r l :
  total_payment (r :: l) = Payment_Amount r + total_payment l.
Proof. reflexivity. Qed.

Lemma total_payment_app l1 l2 :
  total_payment (l1 ++ l2) == total_payment l1 + total_payment l2.
Proof.
  induction l1 as [|r l1 IH].
  - rewrite app_nil_l, total_payment_nil. lra.
  - rewrite <- app_comm_cons, !total_payment_cons, IH. lra.
Qed.

Lemma total_payment_nonneg l : Forall payment_ok l → 0 <= total_payment l.
Proof.
  induction 1 as [|r l [Hr _] _ IH];
    rewrite ?total_payment_nil, ?total_payment_cons; lra.
Qed.

(** One vendor's walk: it appends recommendations for a prefix of the group,
    each with a payment that is positive and at most the amount, and what it
    appends fits what was left of both budgets. *)
Lemma vendor_loop_spec gvb wb group vc tc recommended :
  ∃ new,
    (vendor_loop gvb wb group vc tc recommended).2 = recommended ++ new
    ∧ (vendor_loop gvb wb group vc tc recommended).1 == tc + total_payment new
    ∧ (row <$> new) `prefix_of` group
    ∧ Forall payment_ok new
    ∧ (new = [] ∨ (vc + total_payment new <= gvb ∧ tc + total_payment new <= wb)).
Proof.
  revert vc tc recommended.
  induction group as [|c rest IH]; intros vc tc recommended.
  { exists []. simpl. rewrite app_nil_r, total_payment_nil.
    split_and!; [done|lra|done|constructor|by left]. }
  simpl.
  pose proof (min3_le (Bill.Amount (bill c)) (gvb - vc) (wb - tc)) as (Ha & Hv & Hw).
  set (p := min3 (Bill.Amount (bill c)) (gvb - vc) (wb - tc)) in *.
  destruct (Qle_bool p 0) eqn:Hp.
  { exists []. simpl. rewrite app_nil_r, total_payment_nil.
    split_and!; [done|lra|apply prefix_nil|constructor|by left]. }
  apply Qle_bool_false in Hp.
  set (r := mkRecommendation c p (vc + p) (tc + p)).
  assert (Hr : payment_ok r) by (split; simpl; done).
  destruct (Qle_bool gvb (vc + p) || Qle_bool wb (tc + p)).
  { exists [r]. rewrite total_payment_cons, total_payment_nil.
    change (Payment_Amount r) with p. simpl.
    split_and!; [done|lra|apply prefix_cons, prefix_nil|by constructor|right; split; lra]. }
  destruct (IH (vc + p) (tc + p) (recommended ++ [r]))
    as (new & H2 & H1 & Hpre & Hok & Hfit).
  pose proof (total_payment_nonneg new Hok) as Hnn.
  exists (r :: new). rewrite total_payment_cons.
  change (Payment_Amount r) with p.
  split_and!.
  - by rewrite H2, <- app_assoc.
  - lra.
  - rewrite fmap_cons. by apply prefix_cons.
  - by constructor.
  - right. destruct Hfit as [->|[? ?]]; [rewrite total_payment_nil|]; split; lra.
Qed.

(** The loop over the groups appends one segment per group. *)
Lemma group_loop_spec gvb wb grouped tc recommended :
  ∃ segments,
    (group_loop gvb wb grouped tc recommended).2 = recommended ++ concat segments
    ∧ (group_loop gvb wb grouped tc recommended).1 == tc + total_payment (concat segments)
    ∧ Forall2 (λ kg seg, (row <$> seg) `prefix_of` kg.2 ∧ Forall payment_ok seg
                         ∧ total_payment seg <= Qmax 0 gvb) grouped segments
    ∧ (tc <= Qmax 0 wb → tc + total_payment (concat segments) <= Qmax 0 wb).
Proof.
  revert tc recommended.
  induction grouped as [|[k g] grouped IH]; intros tc recommended.
  { exists []. simpl. rewrite app_nil_r, total_payment_nil.
    split_and!; [done|lra|constructor|lra]. }
  simpl.
  destruct (vendor_loop_spec gvb wb g 0 tc recommended)
    as (new & H2 & H1 & Hpre & Hok & Hfit).
  destruct (vendor_loop gvb wb g 0 tc recommended) as [tc1 rec1].
  simpl in H1, H2. subst rec1.
  destruct (IH tc1 (recommended ++ new)) as (segments & H2' & H1' & Hall & Hweek).
  exists (new :: segments). rewrite concat_cons.
  pose proof (total_payment_app new (concat segments)) as Happ.
  pose proof (Q.le_max_l 0 gvb). pose proof (Q.le_max_r 0 gvb).
  pose proof (Q.le_max_l 0 wb). pose proof (Q.le_max_r 0 wb).
  split_and!.
  - by rewrite H2', <- app_assoc.
  - lra.
  - constructor; [|done]. simpl. split_and!; [done|done|].
    destruct Hfit as [->|[? ?]]; [rewrite total_payment_nil|]; lra.
  - intros Htc.
    assert (tc1 <= Qmax 0 wb) as Htc1.
    { destruct Hfit as [->|[? ?]]; [rewrite total_payment_nil in H1|]; lra. }
    specialize (Hweek Htc1). lra.
Qed.

End Arithmetic.

(** ** Grouping by vendor *)

Lemma group_keys_NoDup df : NoDup (group_keys df).
Proof.
  unfold group_keys. rewrite stable_sort_Permutation. apply NoDup_remove_dups.
Qed.

Lemma groupby_Vendor_keys df : (groupby_Vendor df).*1 = group_keys df.
Proof.
  unfold groupby_Vendor.
  induction (group_keys df) as [|k ks IH]; [done|].
  rewrite !fmap_cons, IH. done.
Qed.

Lemma groupby_Vendor_groups df : Forall (group_of df) (groupby_Vendor df).
Proof.
  unfold groupby_Vendor. apply Forall_fmap, Forall_true. done.
Qed.


Section Segments.
Context (df : list Candidate).
Context (Φ : string * list Candidate → list Recommendation → Prop).

(** A segment holds rows of its own vendor only. *)
Lemma segment_vendor k g seg :
  group_of df (k, g) →
  (row <$> seg) `prefix_of` g →
  Forall (λ r, rec_vendor r = Some k ∧ row r ∈ df) seg.
Proof.
  unfold group_of. simpl. intros -> [rest Hrest]. apply Forall_forall. intros r Hr.
  assert (row r ∈ filter (λ c, Bill.Vendor (bill c) = Some k) df) as Hin.
  { rewrite Hrest. apply elem_of_app. left. by apply list_elem_of_fmap_2. }
  by apply list_elem_of_filter in Hin.
Qed.

Lemma filter_segment v k seg :
  Forall (λ r, rec_vendor r = Some k ∧ row r ∈ df) seg →
  filter (λ r, rec_vendor r = Some v) seg = if decide (v = k) then seg else [].
Proof.
  induction 1 as [|r seg [Hr _] _ IH]; [by destruct (decide _)|].
  rewrite filter_cons, IH. destruct (decide (v = k)) as [->|Hne].
  - by rewrite decide_True.
  - rewrite decide_False; [done|]. rewrite Hr. congruence.
Qed.

(** Every recommendation is for a candidate, and has a vendor. *)
Lemma segments_rows grouped segments :
  Forall (group_of df) grouped →
  Forall2 (λ kg seg, (row <$> seg) `prefix_of` kg.2 ∧ Φ kg seg) grouped segments →
  Forall (λ r, row r ∈ df ∧ ∃ v, rec_vendor r = Some v) (concat segments).
Proof.
  intros Hg H. induction H as [|[k g] seg gs segs [Hpre _] _ IH]; [constructor|].
  apply Forall_cons in Hg as [Hg Hgs].
  rewrite concat_cons. apply Forall_app. split; [|by apply IH].
  eapply Forall_impl; [by eapply segment_vendor|]. intros r [? ?]. eauto.
Qed.

(** A vendor without a group has no recommendation. *)
Lemma segments_not_vendor grouped segments v :
  v ∉ grouped.*1 →
  Forall (group_of df) grouped →
  Forall2 (λ kg seg, (row <$> seg) `prefix_of` kg.2 ∧ Φ kg seg) grouped segments →
  filter (λ r, rec_vendor r = Some v) (concat segments) = [].
Proof.
  intros Hv Hg H. induction H as [|[k g] seg gs segs [Hpre _] _ IH]; [done|].
  apply Forall_cons in Hg as [Hg Hgs].
  rewrite fmap_cons in Hv. apply not_elem_of_cons in Hv as [Hne Hv].
  rewrite concat_cons, filter_app, IH by done.
  rewrite (filter_segment v k seg) by by eapply segment_vendor.
  by rewrite decide_False.
Qed.


End Segments.

(** ** The candidates *)

Lemma merge_row_elem right l c :
  c ∈ merge_row right l →
  bill c = l.1 ∧ Is_Past_Due_45 c = l.2
  ∧ (Bill.Vendor l.1 ∉ right.*1 → priority c = None).
Proof.
  unfold merge_row.
  destruct (filter (λ e, e.1 = Bill.Vendor l.1) right) as [|e es] eqn:Hf.
  - intros ->%list_elem_of_singleton. done.
  - intros ([v p] & -> & Hin)%list_elem_of_fmap. simpl.
    split_and!; [done|done|]. intros Hno. exfalso. apply Hno.
    rewrite <- Hf in Hin. apply list_elem_of_filter in Hin as [<- Hin].
    by apply (list_elem_of_fmap_2 fst) in Hin.
Qed.

Section EngineFacts.
Variable to_datetime : option string → option Timestamp.
Variable to_numeric : option string → option Q.

Abbreviation candidates' := (candidates to_datetime to_numeric).
Abbreviation filter_and_recommend' := (filter_and_recommend to_datetime to_numeric).

(** Where a candidate comes from: a ledger row that is not excluded, is a
    bill, has an amount and a date after the cutoff, and was not recommended
    before. *)
Lemma candidates_elem df exclusions vendor_table already c :
  c ∈ candidates' df exclusions vendor_table already →
  (Bill.Doc_Num (bill c) ∉ already)
  ∧ Is_Past_Due_45 c = past_due_45 (bill c)
  ∧ after_cutoff (bill c) = true
  ∧ (∃ r, r ∈ df ∧ (Ledger.Vendor r ∉ (Some <$> exclusions))
          ∧ Ledger.Transaction_Type r = Some "Bill"%string
          ∧ coerce to_datetime to_numeric r = Some (bill c)).
Proof.
  unfold candidates.
  intros [Hdoc Hc]%list_elem_of_filter.
  unfold sort_values in Hc. rewrite stable_sort_Permutation in Hc.
  set (merged := merge _ _) in Hc.
  assert (∃ c', c' ∈ merged ∧ bill c = bill c'
                ∧ Is_Past_Due_45 c = Is_Past_Due_45 c') as (c' & Hc' & Hb' & Hf').
  { destruct (has_priority vendor_table); [by exists c|].
    apply list_elem_of_fmap in Hc as (c' & -> & Hc'). by exists c'. }
  apply list_elem_of_bind in Hc' as (l & Hc' & Hl).
  apply merge_row_elem in Hc' as (Hb'' & Hf'' & _).
  apply list_elem_of_fmap in Hl as (b & -> & Hb). simpl in *.
  rewrite Hf', Hf'', Hb', Hb''. rewrite Hb', Hb'' in Hdoc.
  apply list_elem_of_filter in Hb as [Hcut Hb].
  apply list_elem_of_omap in Hb as (r & Hr & Hco).
  apply list_elem_of_filter in Hr as [Hbill Hr].
  apply list_elem_of_filter in Hr as [Hex Hr].
  split_and!; [done|done|done|]. exists r. by split_and!.
Qed.


(** The recommendations of a call, as one segment per vendor group. *)
Lemma filter_and_recommend_segments df weekly_budget exclusions vendor_table
    week_ending already vendor_budget_df :
  let out := filter_and_recommend' df weekly_budget exclusions vendor_table
               week_ending already vendor_budget_df in
  let cands := candidates' (Ledger.normalize_Vendor <$> df)
                 (Text.normalize <$> exclusions)
                 (normalize_vendor_table vendor_table) already in
  match lookup_vendor_budget vendor_budget_df week_ending with
  | [] => recommended_df out = []
  | gvb :: _ =>
      ∃ segments,
        recommended_df out = concat segments
        ∧ (total_payment (concat segments) <= Qmax 0 weekly_budget)%Q
        ∧ Forall2 (λ kg seg, (row <$> seg) `prefix_of` kg.2
                     ∧ (Forall payment_ok seg
                        ∧ (total_payment seg <= Qmax 0 gvb)%Q))
            (groupby_Vendor cands) segments
  end.
Proof.
  intros out cands. subst out. unfold filter_and_recommend.
  destruct (lookup_vendor_budget vendor_budget_df week_ending) as [|gvb ?]; [done|].
  fold cands. simpl.
  destruct (group_loop_spec gvb weekly_budget (groupby_Vendor cands) 0 [])
    as (segments & H2 & H1 & Hall & Hweek).
  exists segments. split_and!; [by rewrite H2|..|done].
  pose proof (Q.le_max_l 0 weekly_budget) as Hmax.
  specialize (Hweek Hmax). lra.
Qed.

End EngineFacts.

(** ** Auxiliary facts for the claims *)



Lemma Forall2_concat_Forall {A B} (R : A → list B → Prop) (P : B → Prop) l segs :
  (∀ x seg, R x seg → Forall P seg) →
  Forall2 R l segs → Forall P (concat segs).
Proof.
  intros HR. induction 1 as [|x seg l segs H _ IH]; [constructor|].
  rewrite concat_cons. apply Forall_app. split; [by eapply HR|done].
Qed.

Section CoerceFacts.
Variable to_datetime : option string → option Timestamp.
Variable to_numeric : option string → option Q.


(** Every recommendation of a call is for one of its candidates. *)
Lemma recommended_candidate df weekly_budget exclusions vendor_table
    week_ending already vendor_budget_df r :
  r ∈ recommended_df (filter_and_recommend to_datetime to_numeric df weekly_budget
                        exclusions vendor_table week_ending already vendor_budget_df) →
  row r ∈ candidates to_datetime to_numeric (Ledger.normalize_Vendor <$> df)
            (Text.normalize <$> exclusions)
            (normalize_vendor_table vendor_table) already.
Proof.
  pose proof (filter_and_recommend_segments to_datetime to_numeric df weekly_budget
                exclusions vendor_table week_ending already vendor_budget_df) as H.
  simpl in H.
  destruct (lookup_vendor_budget vendor_budget_df week_ending) as [|gvb ?].
  { rewrite H. by intros ?%elem_of_nil. }
  destruct H as (segments & -> & _ & Hall). intros Hr.
  eapply segments_rows in Hall; [|apply groupby_Vendor_groups].
  by apply (proj1 (Forall_forall _ _) Hall) in Hr as [? _].
Qed.

End CoerceFacts.

(** * The claims *)

Section Claims.
Variable to_datetime : option string → option Timestamp.
Variable to_numeric : option string → option Q.

Abbreviation engine := (filter_and_recommend to_datetime to_numeric).



(** C3: every recommendation of a call has a payment that is greater than 0
    and at most the amount of its invoice. *)
Theorem payment_positive_and_at_most_amount df weekly_budget exclusions
    vendor_table week_ending already vendor_budget_df :
  Forall (λ r, (0 < Payment_Amount r)%Q
               ∧ (Payment_Amount r <= Bill.Amount (bill (row r)))%Q)
    (recommended_df (engine df weekly_budget exclusions vendor_table week_ending
                       already vendor_budget_df)).
Proof.
  pose proof (filter_and_recommend_segments to_datetime to_numeric df weekly_budget
                exclusions vendor_table week_ending already vendor_budget_df) as H.
  simpl in H.
  destruct (lookup_vendor_budget vendor_budget_df week_ending) as [|gvb ?].
  - rewrite H. constructor.
  - destruct H as (segments & -> & _ & Hall).
    eapply Forall2_concat_Forall; [|exact Hall].
    simpl. intros kg seg (_ & Hok & _). exact Hok.
Qed.





(** What the period loop maintains: the [Doc Num]s of every block are in
    [already_recommended], and no two blocks share one. *)
Lemma period_step_invariant exclusions_list vendor_budget_df st period :
  loop_invariant st →
  loop_invariant (period_step to_datetime to_numeric exclusions_list
                    vendor_budget_df st period).
Proof.
  intros [Hseen Hdisj].
  destruct period as [[week_ending|] [weekly_budget|]]; [|done..].
  unfold period_step.
  set (out := filter_and_recommend _ _ _ _ _ _ _ _ _).
  assert (∀ d, d ∈ Doc_Nums (recommended_df out) → d ∉ already_recommended st) as Hnew.
  { intros d (r & -> & Hr)%list_elem_of_fmap.
    by apply recommended_candidate, candidates_elem in Hr as (? & _). }
  destruct (recommended_df out) as [|r recommended] eqn:Hrec; [done|].
  split; cbn [blocks already_recommended].
  - intros b d Hb Hd. apply elem_of_union.
    apply elem_of_app in Hb as [Hb|Hb].
    + left. by eapply Hseen.
    + apply list_elem_of_singleton in Hb. subst b.
      right. by apply elem_of_list_to_set.
  - intros i j bi bj d Hij Hi Hj Hd.
    apply lookup_snoc_Some in Hi as [[Hi_lt Hi]|[-> <-]];
      apply lookup_snoc_Some in Hj as [[Hj_lt Hj]|[-> <-]]; try lia.
    + exact (Hdisj i j bi bj d Hij Hi Hj Hd).
    + apply list_elem_of_lookup_2 in Hi. intros Hd'.
      exact (Hnew d Hd' (Hseen bi d Hi Hd)).
Qed.

Lemma period_loop_invariant exclusions_list vendor_budget_df weekly_budget_df st :
  loop_invariant st →
  loop_invariant (foldl (period_step to_datetime to_numeric exclusions_list
                           vendor_budget_df) st weekly_budget_df).
Proof.
  revert st. induction weekly_budget_df as [|period periods IH]; intros st Hst; [done|].
  simpl. by apply IH, period_step_invariant.
Qed.

(** C4: of two periods the loop ran one after the other and that both
    produced recommendations, no [Doc Num] recommended in the earlier one is
    recommended in the later one. *)
Theorem no_doc_num_in_two_periods df exclusions_list vendor_table vendor_budget_df
    weekly_budget_df i j bi bj d :
  blocks (period_loop to_datetime to_numeric df exclusions_list vendor_table
            vendor_budget_df weekly_budget_df) !! i = Some bi →
  blocks (period_loop to_datetime to_numeric df exclusions_list vendor_table
            vendor_budget_df weekly_budget_df) !! j = Some bj →
  (i < j)%nat →
  d ∈ Doc_Nums bi.2 → d ∉ Doc_Nums bj.2.
Proof.
  intros Hi Hj Hij Hd.
  destruct (period_loop_invariant exclusions_list vendor_budget_df weekly_budget_df
              (mkLoopState df vendor_table ∅ [])) as [_ Hdisj].
  { split; cbn [blocks already_recommended].
    - by intros ? ? ?%elem_of_nil.
    - intros ? ? ? ? ? _ H0. by rewrite lookup_nil in H0. }
  exact (Hdisj i j bi bj d Hij Hi Hj Hd).
Qed.

End Claims.

(** * The claims on the worked inputs *)

Section Closed.
Import Sample Inputs.
Local Open Scope string_scope.




(** C4 on the worked ledger: the first period recommends [D2] and [D1],
    the second, run on the same ledger, recommends [Z1] only. *)
Lemma no_doc_num_in_two_periods_witness :
  blocks (period_loop to_datetime to_numeric ledger [] vendor_table
            vendor_budget_df weekly_budget_df) !! 0%nat
    = Some (week_1, [rec_D2; rec_D1])
  ∧ blocks (period_loop to_datetime to_numeric ledger [] vendor_table
              vendor_budget_df weekly_budget_df) !! 1%nat
      = Some (week_2, [rec_Z1])
  ∧ Some "D1" ∈ Doc_Nums [rec_D2; rec_D1]
  ∧ Some "D1" ∉ Doc_Nums [rec_Z1].
Proof.
  assert (Some "D1" ∈ Doc_Nums [rec_D2; rec_D1]) as Hd
    by (apply list_elem_of_In; vm_compute; tauto).
  split_and!; [by vm_compute|by vm_compute|exact Hd|].
  apply (no_doc_num_in_two_periods to_datetime to_numeric ledger [] vendor_table
           vendor_budget_df weekly_budget_df 0 1
           (week_1, [rec_D2; rec_D1]) (week_2, [rec_Z1]) (Some "D1"));
    [by vm_compute|by vm_compute|lia|exact Hd].
Defined.






(** C6 at its failing input: the sort puts [Z1], of the vendor with the
    higher priority, before [A1]; the loop over the groups starts with
    [alpha] all the same, and the weekly budget of 100 goes to [A1]. *)
Theorem vendor_groups_run_in_name_order :
  (λ c, Bill.Doc_Num (bill c))
    <$> candidates to_datetime to_numeric (Ledger.normalize_Vendor <$> two_vendors)
          [] (normalize_vendor_table zeta_first) ∅
  = [Some "Z1"; Some "A1"]
  ∧ Doc_Nums (recommended_df
                (run two_vendors 100 [] zeta_first [(Some week_1, 100%Q)]))
    = [Some "A1"].
Proof. by vm_compute. Qed.

(** C8 at its failing input: [alpha] is not in the vendor table; the
    priority of its bill is missing, not 0, and the bill is sorted after the
    bill of [zeta], whose priority is -1. *)
Theorem absent_vendor_priority_is_missing :
  (λ c, (Bill.Doc_Num (bill c), priority c))
    <$> candidates to_datetime to_numeric (Ledger.normalize_Vendor <$> two_vendors)
          [] (normalize_vendor_table zeta_only) ∅
  = [(Some "Z1", Some (-1)); (Some "A1", None)]
  ∧ (λ r, (Bill.Doc_Num (bill (row r)), priority (row r)))
      <$> recommended_df (run two_vendors 250 [] zeta_only vendor_budget_df)
    = [(Some "A1", None); (Some "Z1", Some (-1))].
Proof. by vm_compute. Qed.

End Closed.

(** * Further properties of the engine *)

(** ** The shape of the two loops *)

Section LoopShape.
Local Open Scope Q_scope.

(** [vendor_loop] only appends to the list it is given. *)
Lemma vendor_loop_appends gvb wb group vc tc recommended :
  vendor_loop gvb wb group vc tc recommended
  = ((vendor_loop gvb wb group vc tc []).1,
     recommended ++ (vendor_loop gvb wb group vc tc []).2).
Proof.
  revert vc tc recommended.
  induction group as [|c rest IH]; intros vc tc recommended.
  { simpl. by rewrite app_nil_r. }
  simpl.
  set (p := min3 (Bill.Amount (bill c)) (gvb - vc) (wb - tc)).
  destruct (Qle_bool p 0); [by rewrite app_nil_r|].
  destruct (Qle_bool gvb (vc + p) || Qle_bool wb (tc + p)); [done|].
  rewrite (IH _ _ (recommended ++ _)), (IH _ _ [_]). simpl.
  by rewrite <- app_assoc.
Qed.

Lemma group_loop_segments gvb wb grouped tc recommended :
  (group_loop gvb wb grouped tc recommended).2
  = recommended ++ concat (group_segments gvb wb grouped tc).
Proof.
  revert tc recommended.
  induction grouped as [|[k g] grouped IH]; intros tc recommended.
  { simpl. by rewrite app_nil_r. }
  simpl. rewrite (vendor_loop_appends gvb wb g 0 tc recommended).
  rewrite IH. by rewrite <- app_assoc.
Qed.

Lemma group_segments_shape gvb wb grouped tc :
  Forall2 (λ kg seg, (row <$> seg) `prefix_of` kg.2
                     ∧ ∃ tc', seg = (vendor_loop gvb wb kg.2 0 tc' []).2)
    grouped (group_segments gvb wb grouped tc).
Proof.
  revert tc. induction grouped as [|[k g] grouped IH]; intros tc; [constructor|].
  simpl. constructor; [|apply IH]. simpl. split; [|by exists tc].
  destruct (vendor_loop_spec gvb wb g 0 tc []) as (new & H2 & _ & Hpre & _).
  rewrite H2. done.
Qed.

End LoopShape.

Section VendorLoop.
Local Open Scope Q_scope.



(** One step of the walk, from an empty list. *)
Lemma vendor_loop_cons gvb wb c rest vc tc :
  let p := min3 (Bill.Amount (bill c)) (gvb - vc) (wb - tc) in
  let r := mkRecommendation c p (vc + p) (tc + p) in
  vendor_loop gvb wb (c :: rest) vc tc []
  = if Qle_bool p 0 then (tc, [])
    else if Qle_bool gvb (vc + p) || Qle_bool wb (tc + p) then (tc + p, [r])
    else ((vendor_loop gvb wb rest (vc + p) (tc + p) []).1,
          r :: (vendor_loop gvb wb rest (vc + p) (tc + p) []).2).
Proof.
  intros p r. simpl. fold p. destruct (Qle_bool p 0); [done|]. fold r.
  destruct (Qle_bool gvb (vc + p) || Qle_bool wb (tc + p)); [done|].
  by rewrite (vendor_loop_appends _ _ _ _ _ [r]).
Qed.


(** A first invoice whose amount is not positive stops the walk. *)
Lemma vendor_loop_head_not_positive gvb wb c rest vc tc :
  Bill.Amount (bill c) <= 0 → vendor_loop gvb wb (c :: rest) vc tc [] = (tc, []).
Proof.
  intros H. rewrite vendor_loop_cons.
  pose proof (min3_le (Bill.Amount (bill c)) (gvb - vc) (wb - tc)) as (Ha & _ & _).
  assert (min3 (Bill.Amount (bill c)) (gvb - vc) (wb - tc) <= 0) as Hp by lra.
  apply Qle_bool_iff in Hp. by rewrite Hp.
Qed.





Lemma last_total_app t0 l1 l2 :
  last_total t0 (l1 ++ l2) = last_total (last_total t0 l1) l2.
Proof.
  unfold last_total. destruct l2 as [|r l2 _] using rev_ind.
  - by rewrite app_nil_r.
  - by rewrite app_assoc, !last_snoc.
Qed.





End VendorLoop.

Lemma group_keys_elem df v :
  v ∈ group_keys df ↔ ∃ c, c ∈ df ∧ Bill.Vendor (bill c) = Some v.
Proof.
  unfold group_keys. rewrite stable_sort_Permutation, elem_of_remove_dups.
  apply list_elem_of_omap.
Qed.

Lemma segments_of_key df (Φ : string * list Candidate → list Recommendation → Prop)
    grouped segments v :
  v ∈ grouped.*1 →
  NoDup grouped.*1 →
  Forall (group_of df) grouped →
  Forall2 (λ kg seg, (row <$> seg) `prefix_of` kg.2 ∧ Φ kg seg) grouped segments →
  ∃ g, group_of df (v, g)
       ∧ Φ (v, g) (filter (λ r, rec_vendor r = Some v) (concat segments)).
Proof.
  intros Hv Hnd Hg H.
  induction H as [|[k g] seg gs segs [Hpre HΦ] Hrest IH]; [by apply elem_of_nil in Hv|].
  apply Forall_cons in Hg as [Hg Hgs].
  rewrite fmap_cons in Hnd. apply NoDup_cons in Hnd as [Hk Hks].
  rewrite concat_cons, filter_app.
  rewrite (filter_segment df v k seg) by by eapply segment_vendor.
  destruct (decide (v = k)) as [->|Hne].
  - exists g. rewrite (segments_not_vendor df _ gs segs k) by done.
    by rewrite app_nil_r.
  - rewrite app_nil_l. apply IH; [|done..].
    rewrite fmap_cons in Hv. apply elem_of_cons in Hv as [?|?]; done.
Qed.

Section EngineShape.
Variable to_datetime : option string → option Timestamp.
Variable to_numeric : option string → option Q.

Abbreviation engine := (filter_and_recommend to_datetime to_numeric).
Abbreviation candidates_of df exclusions vendor_table already :=
  (candidates to_datetime to_numeric (Ledger.normalize_Vendor <$> df)
     (Text.normalize <$> exclusions) (normalize_vendor_table vendor_table) already).

(** With a vendor budget for the week, the recommendations are the segments
    of the groups of the candidates, one after the other. *)
Lemma recommended_segments df weekly_budget exclusions vendor_table week_ending
    already vendor_budget_df gvb :
  head (lookup_vendor_budget vendor_budget_df week_ending) = Some gvb →
  recommended_df (engine df weekly_budget exclusions vendor_table week_ending
                    already vendor_budget_df)
  = concat (group_segments gvb weekly_budget
              (groupby_Vendor (candidates_of df exclusions vendor_table already)) 0).
Proof.
  intros Hgvb. unfold filter_and_recommend.
  destruct (lookup_vendor_budget vendor_budget_df week_ending) as [|g ?]; [done|].
  injection Hgvb as ->. simpl. by rewrite group_loop_segments.
Qed.

(** The recommendations for one vendor are what [vendor_loop] makes of the
    candidates of that vendor. *)
Lemma recommended_of_vendor df weekly_budget exclusions vendor_table week_ending
    already vendor_budget_df gvb v :
  head (lookup_vendor_budget vendor_budget_df week_ending) = Some gvb →
  ∃ tc,
    filter (λ r, rec_vendor r = Some v)
      (recommended_df (engine df weekly_budget exclusions vendor_table week_ending
                         already vendor_budget_df))
    = (vendor_loop gvb weekly_budget
         (filter (λ c, Bill.Vendor (bill c) = Some v)
            (candidates_of df exclusions vendor_table already)) 0 tc []).2.
Proof.
  intros Hgvb. rewrite (recommended_segments _ _ _ _ _ _ _ gvb Hgvb).
  set (cands := candidates _ _ _ _ _ _).
  pose proof (group_segments_shape gvb weekly_budget (groupby_Vendor cands) 0) as Hall.
  destruct (decide (v ∈ group_keys cands)) as [Hin|Hout].
  - eapply (segments_of_key cands _ _ _ v) in Hall as (g & Hg & tc & Heq);
      [|by rewrite groupby_Vendor_keys|by rewrite groupby_Vendor_keys; apply group_keys_NoDup
       |apply groupby_Vendor_groups].
    exists tc. rewrite Heq. unfold group_of in Hg. simpl in *. by rewrite Hg.
  - exists 0%Q.
    assert (v ∉ (groupby_Vendor cands).*1) as Hout'
      by by rewrite groupby_Vendor_keys.
    rewrite (segments_not_vendor cands _ (groupby_Vendor cands) _ v Hout'
               (groupby_Vendor_groups cands) Hall).
    destruct (filter (λ c, Bill.Vendor (bill c) = Some v) cands) as [|c l] eqn:Hf;
      [done|].
    exfalso. apply Hout, group_keys_elem. exists c.
    apply and_comm, (list_elem_of_filter (λ c, Bill.Vendor (bill c) = Some v)).
    rewrite Hf. left.
Qed.


Lemma no_vendor_budget_no_recommendation df weekly_budget exclusions vendor_table
    week_ending already vendor_budget_df :
  head (lookup_vendor_budget vendor_budget_df week_ending) = None →
  recommended_df (engine df weekly_budget exclusions vendor_table week_ending
                    already vendor_budget_df) = [].
Proof.
  unfold filter_and_recommend.
  by destruct (lookup_vendor_budget vendor_budget_df week_ending).
Qed.

End EngineShape.

(** ** What a call recommends *)

Lemma normalize_vendor_table_idemp vt :
  normalize_vendor_table (normalize_vendor_table vt) = normalize_vendor_table vt.
Proof.
  unfold normalize_vendor_table. simpl. f_equal.
  rewrite <- list_fmap_compose. apply list_fmap_ext.
  intros _ [[v|] p] _; simpl; [|done]. by rewrite TextFacts.normalize_idemp.
Qed.

Section EngineExtras.
Variable to_datetime : option string → option Timestamp.
Variable to_numeric : option string → option Q.

Abbreviation engine := (filter_and_recommend to_datetime to_numeric).







(** X6: when the first candidate of a vendor, in allocation order, has an
    amount of 0 or less, the call recommends nothing for that vendor,
    whatever follows in the group: the inner loop breaks at it. *)
Theorem non_positive_amount_blocks_vendor df weekly_budget exclusions vendor_table
    week_ending already vendor_budget_df v c :
  head (filter (λ c, Bill.Vendor (bill c) = Some v)
          (candidates to_datetime to_numeric (Ledger.normalize_Vendor <$> df)
             (Text.normalize <$> exclusions) (normalize_vendor_table vendor_table)
             already)) = Some c →
  (Bill.Amount (bill c) <= 0)%Q →
  filter (λ r, rec_vendor r = Some v)
    (recommended_df (engine df weekly_budget exclusions vendor_table week_ending
                       already vendor_budget_df)) = [].
Proof.
  intros Hhead Hc.
  destruct (head (lookup_vendor_budget vendor_budget_df week_ending)) as [gvb|] eqn:Hgvb.
  - destruct (recommended_of_vendor to_datetime to_numeric df weekly_budget exclusions
                vendor_table week_ending already vendor_budget_df gvb v Hgvb)
      as [tc ->].
    destruct (filter _ (candidates _ _ _ _ _ _)) as [|c' rest]; [done|].
    injection Hhead as ->. by rewrite vendor_loop_head_not_positive.
  - by rewrite (no_vendor_budget_no_recommendation to_datetime to_numeric _ _ _ _ _ _ _ Hgvb).
Qed.


End EngineExtras.

(** ** Budgets that suffice *)

Section SumByKey.
Context {A : Type} (key : A → option string) (w : A → Q).
Local Open Scope Q_scope.








End SumByKey.

Section Sufficient.
Local Open Scope Q_scope.










End Sufficient.

Section SufficientEngine.
Variable to_datetime : option string → option Timestamp.
Variable to_numeric : option string → option Q.
Local Open Scope Q_scope.


End SufficientEngine.

(** ** The summary *)

Example summary_of_spec_scenario :
  recommended_summary
    (recommended_df (Inputs.run Inputs.ledger 250 [] Inputs.vendor_table
                       Inputs.vendor_budget_df))
  = Some [mkSummaryRow "acme" "D2, D1" 250].
Proof. by vm_compute. Qed.




Section SummaryFacts.
Variable to_datetime : option string → option Timestamp.
Variable to_numeric : option string → option Q.
Local Open Scope Q_scope.



End SummaryFacts.

(** * The report normaliser *)

Section ReportFacts.
Import Report.

Lemma section_header_raises s :
  section_header s = Raised IndexError ↔ Header_ColData s = Some [].
Proof.
  unfold section_header.
  destruct (Header_ColData s) as [[|[| |h] l]|]; split; done.
Qed.

Lemma section_header_cases s :
  (∃ h, section_header s = Returned h) ∨ Header_ColData s = Some [].
Proof.
  unfold section_header.
  destruct (Header_ColData s) as [[|[| |h] l]|]; eauto.
Qed.

Lemma omap_row_values header (rows : list Row) :
  omap (row_values header) rows
  = (λ r, header :: (cell <$> default [] (ColData r)))
      <$> filter (λ r, type r = Some "Data"%string) rows.
Proof.
  induction rows as [|r rows IH]; [done|].
  rewrite filter_cons. cbn [omap list_omap]. unfold row_values at 1.
  destruct (decide (type r = Some "Data"%string)); [rewrite fmap_cons|];
    by rewrite <- IH.
Qed.

Lemma section_data_returned s header :
  section_header s = Returned header →
  section_data s = Returned (section_values s header).
Proof.
  intros H. unfold section_data. rewrite H. simpl.
  by rewrite omap_row_values.
Qed.

(** The loop raises exactly when a section has a header with an empty
    [ColData]; otherwise it returns the values of the [Data] rows, section
    by section. *)
Lemma collect_cases (sections : list Section) :
  (collect sections = Raised IndexError
   ∧ ∃ s, s ∈ sections ∧ Header_ColData s = Some [])
  ∨ (∃ data, collect sections = Returned data
       ∧ Forall (λ s, Header_ColData s ≠ Some []) sections
       ∧ Forall2 (λ sr values,
                    section_header sr.1 = Returned (mjoin (values !! 0%nat))
                    ∧ values = mjoin (values !! 0%nat)
                                 :: (cell <$> default [] (ColData sr.2)))
           (all_data_rows sections) data).
Proof.
  induction sections as [|s rest IH].
  { right. exists []. split_and!; [done|constructor|constructor]. }
  simpl. destruct (section_header_cases s) as [[h Hh]|Hs].
  - rewrite (section_data_returned s h Hh). simpl.
    assert (Header_ColData s ≠ Some []) as Hok.
    { intros Hs. apply section_header_raises in Hs. congruence. }
    destruct IH as [[-> (s' & Hs' & Hempty)]|(data & -> & Hall & Hrows)].
    + left. split; [done|]. exists s'. split; [by right|done].
    + right. exists (section_values s h ++ data). simpl.
      split_and!; [done|by constructor|].
      unfold all_data_rows. simpl. fold (all_data_rows rest).
      apply Forall2_app; [|done]. unfold section_values.
      apply Forall2_fmap, Forall_Forall2_diag, Forall_true. intros r. done.
  - left. unfold section_data.
    rewrite (proj2 (section_header_raises s) Hs). simpl.
    split; [done|]. exists s. split; [left|done].
Qed.

Lemma collected_width (rows : list (Section * Row)) data :
  Forall2 (λ sr values,
             section_header sr.1 = Returned (mjoin (values !! 0%nat))
             ∧ values = mjoin (values !! 0%nat)
                          :: (cell <$> default [] (ColData sr.2))) rows data →
  (data = [] ↔ rows = [])
  ∧ (rows ≠ [] → max_list (length <$> data) = S (widest rows)).
Proof.
  unfold widest. induction 1 as [|sr values rows data [_ Hv] Hrest [IH1 IH2]]; [done|].
  split; [done|]. intros _. rewrite !fmap_cons. cbn [max_list].
  rewrite Hv at 1. cbn [length]. rewrite length_fmap.
  destruct rows as [|sr' rows'].
  - apply Forall2_nil_inv_l in Hrest as ->. simpl. by rewrite Nat.max_0_r.
  - rewrite IH2 by done. by rewrite Nat.succ_max_distr.
Qed.

(** X11: [extract_data_to_dataframe] raises [IndexError] exactly when the
    payload has a section whose header has an empty [ColData] list. *)
Theorem extract_raises_IndexError_iff rows :
  extract_data_to_dataframe rows = Raised IndexError
  ↔ ∃ s, s ∈ default [] rows ∧ Header_ColData s = Some [].
Proof.
  unfold extract_data_to_dataframe.
  destruct (collect_cases (default [] rows))
    as [[-> Hs]|(data & -> & Hall & _)]; [done|].
  split.
  - simpl. unfold DataFrame. destruct data; [done|]. by destruct (decide _).
  - intros (s & Hs & Hempty). by apply (proj1 (Forall_forall _ _) Hall) in Hs.
Qed.

(** X12: [extract_data_to_dataframe] raises [ValueError] exactly when no
    section has an empty header [ColData] list, some row is typed [Data],
    and the row typed [Data] with the most [ColData] entries does not have
    eight. *)
Theorem extract_raises_ValueError_iff rows :
  extract_data_to_dataframe rows = Raised ValueError
  ↔ Forall (λ s, Header_ColData s ≠ Some []) (default [] rows)
    ∧ all_data_rows (default [] rows) ≠ []
    ∧ widest (all_data_rows (default [] rows)) ≠ 8%nat.
Proof.
  unfold extract_data_to_dataframe.
  destruct (collect_cases (default [] rows))
    as [[-> (s & Hs & Hempty)]|(data & -> & Hall & Hrows)].
  { split; [done|]. intros [Hall _].
    by apply (proj1 (Forall_forall _ _) Hall) in Hs. }
  destruct (collected_width _ _ Hrows) as [Hnil Hwidth]. simpl. unfold DataFrame.
  destruct data as [|values data].
  { split; [done|]. intros (_ & Hne & _). exfalso. by apply Hne, Hnil. }
  assert (all_data_rows (default [] rows) ≠ []) as Hne.
  { intros H. by apply Hnil in H. }
  rewrite (Hwidth Hne).
  destruct (decide (S (widest (all_data_rows (default [] rows))) = 9%nat)) as [Hw|Hw].
  - split; [done|]. intros (_ & _ & Hw'). lia.
  - split; [|done]. intros _. split_and!; [done|done|lia].
Qed.

(** X13: when [extract_data_to_dataframe] returns, the frame has one row
    per row typed [Data], in the order of the payload: its first cell is the
    header of the section of the row, the eight that follow are the values of
    the row by position, missing where the row is short or the value is
    absent or null. *)
Theorem extract_one_row_per_data_row rows df :
  extract_data_to_dataframe rows = Returned df →
  Forall2 (λ sr l,
             let cells := cell <$> default [] (ColData sr.2) in
             section_header sr.1 = Returned (Ledger.Aging_Category l)
             ∧ Ledger.Date l = mjoin (cells !! 0%nat)
             ∧ Ledger.Transaction_Type l = mjoin (cells !! 1%nat)
             ∧ Ledger.Doc_Num l = mjoin (cells !! 2%nat)
             ∧ Ledger.Vendor l = mjoin (cells !! 3%nat)
             ∧ Ledger.Due_Date l = mjoin (cells !! 4%nat)
             ∧ Ledger.Past_Due l = mjoin (cells !! 5%nat)
             ∧ Ledger.Amount l = mjoin (cells !! 6%nat)
             ∧ Ledger.Open_Balance l = mjoin (cells !! 7%nat))
    (all_data_rows (default [] rows)) df.
Proof.
  unfold extract_data_to_dataframe.
  destruct (collect_cases (default [] rows))
    as [[-> _]|(data & -> & _ & Hrows)]; [done|].
  simpl. unfold DataFrame. intros Hdf.
  assert (df = frame_row <$> data) as ->.
  { destruct data; [by injection Hdf|]. destruct (decide _); [by injection Hdf|done]. }
  apply Forall2_fmap_r. eapply Forall2_impl; [exact Hrows|].
  intros sr values [Hh Hv]. simpl. rewrite Hv at 2 3 4 5 6 7 8 9. done.
Qed.

(** X14: [validate_and_process_report] returns [None] exactly when nothing
    was fetched, or when the payload has no row typed [Data] and no section
    whose header has an empty [ColData] list. *)
Theorem validate_and_process_report_None_iff fetched :
  validate_and_process_report fetched = Returned None
  ↔ fetched = None
    ∨ ∃ rows, fetched = Some rows
              ∧ Forall (λ s, Header_ColData s ≠ Some []) (default [] rows)
              ∧ all_data_rows (default [] rows) = [].
Proof.
  destruct fetched as [rows|]; [|split; [by left|done]].
  unfold validate_and_process_report, extract_data_to_dataframe.
  destruct (collect_cases (default [] rows))
    as [[-> (s & Hs & Hempty)]|(data & -> & Hall & Hrows)].
  { split; [done|]. intros [?|(? & [= <-] & Hall & _)]; [done|].
    by apply (proj1 (Forall_forall _ _) Hall) in Hs. }
  destruct (collected_width _ _ Hrows) as [Hnil _]. simpl. unfold DataFrame.
  destruct data as [|values data].
  { split; [|done]. intros _. right. exists rows. split_and!; [done|done|by apply Hnil]. }
  split.
  - destruct (decide _); simpl; done.
  - intros [?|(? & [= <-] & _ & Hno)]; [done|]. by apply Hnil in Hno.
Qed.

End ReportFacts.

(** * The configuration and the periods *)

Section LoopFacts.
Variable to_datetime : option string → option Timestamp.
Variable to_numeric : option string → option Q.
Local Open Scope Q_scope.

Abbreviation engine := (filter_and_recommend to_datetime to_numeric).
Abbreviation step := (period_step to_datetime to_numeric).

(** A call reads its ledger and its vendor table through their
    normalised forms only. *)
Lemma engine_up_to_names df df' weekly_budget exclusions vt vt' week_ending
    already vendor_budget_df :
  Ledger.normalize_Vendor <$> df = Ledger.normalize_Vendor <$> df' →
  normalize_vendor_table vt = normalize_vendor_table vt' →
  engine df weekly_budget exclusions vt week_ending already vendor_budget_df
  = engine df' weekly_budget exclusions vt' week_ending already vendor_budget_df.
Proof. intros Hdf Hvt. unfold filter_and_recommend. by rewrite Hdf, Hvt. Qed.

Lemma df_after_normalised df weekly_budget exclusions vt week_ending already
    vendor_budget_df :
  df_after (engine df weekly_budget exclusions vt week_ending already vendor_budget_df)
  = Ledger.normalize_Vendor <$> df
  ∧ vendor_table_after
      (engine df weekly_budget exclusions vt week_ending already vendor_budget_df)
    = normalize_vendor_table vt.
Proof. unfold filter_and_recommend. by destruct (lookup_vendor_budget _ _). Qed.

Lemma normalize_ledger_idemp (df : list Ledger.Row) :
  Ledger.normalize_Vendor <$> (Ledger.normalize_Vendor <$> df)
  = Ledger.normalize_Vendor <$> df.
Proof.
  rewrite <- list_fmap_compose. apply list_fmap_ext.
  intros _ l _. apply normalize_Vendor_idemp.
Qed.

Lemma period_step_up_to_names exclusions vendor_budget_df st st' period :
  same_up_to_names st st' →
  same_up_to_names (step exclusions vendor_budget_df st period)
    (step exclusions vendor_budget_df st' period).
Proof.
  intros (Hdf & Hvt & Hal & Hbl).
  destruct period as [[week_ending|] [weekly_budget|]]; try done.
  unfold period_step.
  rewrite (engine_up_to_names (ledger st) (ledger st') _ _ (vendors st) (vendors st')
             _ _ _ Hdf Hvt), Hal, Hbl.
  by destruct (recommended_df _).
Qed.

Lemma foldl_step_up_to_names exclusions vendor_budget_df periods st st' :
  same_up_to_names st st' →
  same_up_to_names (foldl (step exclusions vendor_budget_df) st periods)
    (foldl (step exclusions vendor_budget_df) st' periods).
Proof.
  revert st st'. induction periods as [|p ps IH]; intros st st' H; [done|].
  simpl. by apply IH, period_step_up_to_names.
Qed.

(** A period without a vendor budget changes the spelling of vendor names
    at most. *)
Lemma period_step_no_vendor_budget exclusions vendor_budget_df st week_ending
    weekly_budget :
  lookup_vendor_budget vendor_budget_df week_ending = [] →
  same_up_to_names
    (step exclusions vendor_budget_df st (Some week_ending, Some weekly_budget)) st.
Proof.
  intros Hno. unfold period_step, filter_and_recommend. rewrite Hno. simpl.
  split_and!; [apply normalize_ledger_idemp|apply normalize_vendor_table_idemp|done..].
Qed.

(** X18: a weekly budget row for a week without a vendor budget adds
    nothing to the run and changes none of the later periods: the loop
    produces the same blocks with and without it. *)
Theorem period_without_vendor_budget_is_skipped df exclusions_list vendor_table
    vendor_budget_df (before after : list (option Timestamp * option Q))
    (week_ending : Timestamp) (weekly_budget : option Q) :
  lookup_vendor_budget vendor_budget_df week_ending = [] →
  blocks (period_loop to_datetime to_numeric df exclusions_list vendor_table
            vendor_budget_df (before ++ (Some week_ending, weekly_budget) :: after))
  = blocks (period_loop to_datetime to_numeric df exclusions_list vendor_table
              vendor_budget_df (before ++ after)).
Proof.
  intros Hno. unfold period_loop. rewrite !foldl_app. simpl.
  set (st := foldl _ _ before).
  assert (same_up_to_names
            (step exclusions_list vendor_budget_df st (Some week_ending, weekly_budget))
            st) as Hsame.
  { destruct weekly_budget as [wb|]; [|done].
    by apply period_step_no_vendor_budget. }
  by apply (foldl_step_up_to_names exclusions_list vendor_budget_df after) in Hsame
    as (_ & _ & _ & ?).
Qed.




Lemma foldl_step_weeks exclusions vendor_budget_df
    (periods : list (option Timestamp * option Q)) st :
  ∃ weeks, weeks `sublist_of` omap fst periods
           ∧ (blocks (foldl (step exclusions vendor_budget_df) st periods)).*1
             = (blocks st).*1 ++ weeks.
Proof.
  revert st. induction periods as [|p ps IH]; intros st.
  { exists []. by rewrite app_nil_r. }
  simpl. destruct (IH (step exclusions vendor_budget_df st p)) as (weeks & Hsub & ->).
  destruct p as [[we|] [wb|]]; simpl.
  - unfold period_step. destruct (recommended_df _) as [|r l]; simpl.
    + exists weeks. split; [by apply sublist_cons|done].
    + exists (we :: weeks). split; [by apply sublist_skip|].
      by rewrite fmap_app, <- app_assoc.
  - exists weeks. split; [by apply sublist_cons|done].
  - by exists weeks.
  - by exists weeks.
Qed.



(** X17: the weeks of the blocks the run produces come in the order of the
    weekly budget rows of the configuration: they are a subsequence of the
    week endings of those rows. *)
Theorem blocks_follow_the_configured_weeks df budget vendor_table :
  (blocks (run_periods to_datetime to_numeric df budget vendor_table)).*1
  `sublist_of`
  omap fst (Config.weekly_budget_df (Config.normalize_config_type <$> budget)).
Proof.
  unfold run_periods, period_loop.
  destruct (foldl_step_weeks
              (Config.exclusions_list (Config.normalize_config_type <$> budget))
              (Config.vendor_budget_df (Config.normalize_config_type <$> budget))
              (Config.weekly_budget_df (Config.normalize_config_type <$> budget))
              (mkLoopState df vendor_table ∅ [])) as (weeks & Hsub & ->).
  done.
Qed.

End LoopFacts.

(** * The environment file *)

Section EnvFacts.
Import Env.






Lemma prefix_cons a s1 b s2 :
  String.prefix (String a s1) (String b s2)
  = if decide (a = b) then String.prefix s1 s2 else false.
Proof.
  change (String.prefix (String a s1) (String b s2))
    with (match ascii_dec a b with
          | left _ => String.prefix s1 s2
          | right _ => false
          end).
  by destruct (ascii_dec a b), (decide (a = b)).
Qed.
























Lemma proper_tail x l2 : proper (x :: l2) → proper l2.
Proof. destruct l2; [done|]. by intros [_ ?]. Qed.













End EnvFacts.

(** * The further properties on worked inputs *)

Section ClosedExtras.
Import Sample Inputs MoreInputs Documents.
Local Open Scope string_scope.







(** X6 on a ledger where the first candidate of [acme] is a credit of 50:
    the bill [D1] of [acme] that follows it is not paid. *)
Lemma non_positive_amount_blocks_vendor_witness :
  head (filter (λ c, Bill.Vendor (bill c) = Some "acme")
          (candidates to_datetime to_numeric (Ledger.normalize_Vendor <$> credit_first)
             (Text.normalize <$> []) (normalize_vendor_table vendor_table) ∅))
    = Some (a_candidate bill_C1 "acme" (-50) true 1)
  ∧ filter (λ r, rec_vendor r = Some "acme")
      (recommended_df (run credit_first 250 [] vendor_table vendor_budget_df)) = [].
Proof.
  assert (head (filter (λ c, Bill.Vendor (bill c) = Some "acme")
                  (candidates to_datetime to_numeric
                     (Ledger.normalize_Vendor <$> credit_first)
                     (Text.normalize <$> []) (normalize_vendor_table vendor_table) ∅))
          = Some (a_candidate bill_C1 "acme" (-50) true 1)) as Hhead
    by (by vm_compute).
  split; [exact Hhead|].
  apply (non_positive_amount_blocks_vendor to_datetime to_numeric credit_first 250 []
           vendor_table week_1 ∅ vendor_budget_df "acme"
           (a_candidate bill_C1 "acme" (-50) true 1) Hhead).
  by vm_compute.
Defined.




(** X13 on the worked report: its one data row becomes the ledger row of
    the bill [D1]; the total row of the section is left out. *)
Lemma extract_one_row_per_data_row_witness :
  Report.extract_data_to_dataframe (Some [one_section]) = Report.Returned [bill_D1]
  ∧ Report.all_data_rows [one_section] = [(one_section, d1_row)]
  ∧ Forall2 (λ sr l,
               let cells := Report.cell <$> default [] (Report.ColData sr.2) in
               Report.section_header sr.1 = Report.Returned (Ledger.Aging_Category l)
               ∧ Ledger.Date l = mjoin (cells !! 0%nat)
               ∧ Ledger.Transaction_Type l = mjoin (cells !! 1%nat)
               ∧ Ledger.Doc_Num l = mjoin (cells !! 2%nat)
               ∧ Ledger.Vendor l = mjoin (cells !! 3%nat)
               ∧ Ledger.Due_Date l = mjoin (cells !! 4%nat)
               ∧ Ledger.Past_Due l = mjoin (cells !! 5%nat)
               ∧ Ledger.Amount l = mjoin (cells !! 6%nat)
               ∧ Ledger.Open_Balance l = mjoin (cells !! 7%nat))
      (Report.all_data_rows (default [] (Some [one_section]))) [bill_D1].
Proof.
  assert (Report.extract_data_to_dataframe (Some [one_section])
          = Report.Returned [bill_D1]) as Hdf by (by vm_compute).
  split; [exact Hdf|]. split; [by vm_compute|].
  exact (extract_one_row_per_data_row (Some [one_section]) [bill_D1] Hdf).
Defined.




(** X18 on the worked ledger: with a vendor budget for the first week
    only, the second week adds nothing. *)
Lemma period_without_vendor_budget_is_skipped_witness :
  lookup_vendor_budget [(Some week_1, 250%Q)] week_2 = []
  ∧ blocks (period_loop to_datetime to_numeric ledger [] vendor_table
              [(Some week_1, 250%Q)]
              ([(Some week_1, Some 250%Q)] ++ (Some week_2, Some 250%Q) :: []))
    = blocks (period_loop to_datetime to_numeric ledger [] vendor_table
                [(Some week_1, 250%Q)] ([(Some week_1, Some 250%Q)] ++ [])).
Proof.
  assert (lookup_vendor_budget [(Some week_1, 250%Q)] week_2 = []) as Hno
    by (by vm_compute).
  split; [exact Hno|].
  exact (period_without_vendor_budget_is_skipped to_datetime to_numeric ledger []
           vendor_table [(Some week_1, 250%Q)] [(Some week_1, Some 250%Q)] []
           week_2 (Some 250%Q) Hno).
Defined.






End ClosedExtras.
